(** * websocket_monitor.py: a shallow embedding and its verified properties

    The program logs in to a remote service through a headless browser,
    extracts a signature from the page it lands on, opens a websocket, sends
    [LOGIN=<signature>] and prints every frame it receives.

    Python values are modelled as follows.
    - [str] is a sequence of Unicode code points: [pystr := list N].
      [len] is [length], slicing is [take]/[drop].
    - [os.environ] is a finite map ([gmap]); the dict built by
      [get_env_consts] is an association list, because the order in which
      its keys are visited decides which missing variable is reported.
    - Output and calls into libraries (print, the browser, [ws.send]) are
      recorded in a trace of [effect]s; an exception is a [Raised] result.
    - What the outside world answers (the page the browser ends on, the
      clock, the frames and errors the transport delivers) is carried by
      the [event] that triggers a callback. *)

From Stdlib Require Import NArith ZArith String Ascii Lia.
From stdpp Require Import base option list gmap.

Local Open Scope N_scope.

(** ** Python strings *)

Module PyStr.

Definition char := N.
Definition pystr := list char.

(** An ASCII literal of the source, as code points. *)
Definition lit (s : string) : pystr :=
  List.map N_of_ascii (list_ascii_of_string s).

Definition apostrophe : char := 39.
Definition semicolon : char := 59.
(** U+2193 DOWNWARDS ARROW and U+2191 UPWARDS ARROW. *)
Definition down_arrow : char := 8595.
Definition up_arrow : char := 8593.

(** [s.split(sep, maxsplit)] for a one-character separator;
    [maxsplit = None] is Python's default of -1 (no limit). *)
Fixpoint split (sep : char) (maxsplit : option nat) (s : pystr) : list pystr :=
  match s with
  | [] => [[]]
  | c :: s' =>
      if bool_decide (c = sep) && negb (bool_decide (maxsplit = Some O))
      then [] :: split sep (pred <$> maxsplit) s'
      else match split sep maxsplit s' with
           | piece :: pieces => (c :: piece) :: pieces
           | [] => [[c]]
           end
  end.

(** [s.count(c)] for a one-character [c]. *)
Fixpoint count (c : char) (s : pystr) : nat :=
  match s with
  | [] => O
  | x :: s' => ((if bool_decide (x = c) then 1 else 0) + count c s')%nat
  end.

(** Decimal digits. [dec w n] is [n] written with exactly [w] digits,
    zero padded: what [strftime] prints for a field of width [w]
    ([%H], [%M], [%S], [%d], [%m]: 2; [%Y]: 4; [%f]: 6). *)
Definition digit (d : N) : char := 48 + d.

Fixpoint dec (w : nat) (n : N) : pystr :=
  match w with
  | O => []
  | S w' => dec w' (n / 10) ++ [digit (n mod 10)]
  end.

Definition is_digit (c : char) : bool := (48 <=? c) && (c <=? 57).

(** [s[:-k]] *)
Definition drop_last (k : nat) (s : pystr) : pystr :=
  take (length s - k) s.

End PyStr.
Import PyStr.

(** ** Exceptions, effects and the monad of the handlers *)

(** An exception object: the names of its class and of the classes it
    derives from (its MRO, most derived first) and [str(e)].  Its
    traceback is not modelled; printing it is the effect [EPrintTb]. *)
Record exn := Exn { exc_mro : list pystr; exc_str : pystr }.

(** [isinstance(e, cls)] *)
Definition isinstance (e : exn) (cls : pystr) : bool :=
  bool_decide (cls ∈ exc_mro e).

Definition repr_str (s : pystr) : pystr := apostrophe :: s ++ [apostrophe].

Definition KeyError (key : pystr) : exn :=
  Exn [lit "KeyError"; lit "LookupError"; lit "Exception"; lit "BaseException"]
      (repr_str key).
Definition IndexError : exn :=
  Exn [lit "IndexError"; lit "LookupError"; lit "Exception"; lit "BaseException"]
      (lit "list index out of range").
Definition AttributeError : exn :=
  Exn [lit "AttributeError"; lit "Exception"; lit "BaseException"]
      (lit "'NoneType' object has no attribute 'text'").
Definition WebSocketConnectionClosedException (msg : pystr) : exn :=
  Exn [lit "WebSocketConnectionClosedException"; lit "WebSocketException";
       lit "Exception"; lit "BaseException"] msg.

(** The calls [get_signature] issues to Playwright, in source order;
    the first is [async_playwright()] entered by the [async with] of
    line 46. *)
Inductive browser_op :=
| AsyncPlaywright
| LaunchPersistentContext (user_data_dir : pystr)
| NewPage
| Goto (url : pystr)
| Fill (selector value : pystr)
| Click (selector : pystr)
| Content.

(** The dict built by [log_ws_message]. *)
Record message_data := MessageData {
  md_time : pystr;
  md_length : nat;
  md_message : pystr;
  md_received : bool }.

(** The arguments of [ws.run_forever]. *)
Record run_forever_args := RunForeverArgs {
  rf_url : pystr;
  rf_dispatcher_rel : bool;
  rf_reconnect : Z;
  rf_cert_reqs_none : bool }.

Inductive effect :=
| EPrint (line : pystr)            (* print(line): the text and a newline on stdout *)
| EPrintTb (e : exn)               (* traceback.print_tb(e.__traceback__), no limit *)
| EBrowser (op : browser_op)       (* a call to the Playwright browser *)
| ESend (frame : pystr)            (* ws.send(frame) *)
| EMessageData (md : message_data) (* ghost: the dict log_ws_message builds and drops *)
| EEnableTrace (on : bool)         (* websocket.enableTrace *)
| ERunForever (args : run_forever_args)
| ERelSignal (signum : Z)          (* rel.signal(signum, rel.abort) *)
| ERelDispatch.

Inductive result (A : Type) :=
| Ok (a : A)
| Raised (e : exn).
Arguments Ok {A} a.
Arguments Raised {A} e.

(** A computation: the effects it performed, and how it ended. *)
Definition M (A : Type) : Type := list effect * result A.

Definition ret {A} (a : A) : M A := ([], Ok a).
Definition raise {A} (e : exn) : M A := ([], Raised e).
Definition emit (x : effect) : M unit := ([x], Ok tt).
Definition bind {A B} (m : M A) (f : A -> M B) : M B :=
  match m with
  | (tr, Ok a) => let '(tr', r) := f a in (tr ++ tr', r)
  | (tr, Raised e) => (tr, Raised e)
  end.

#[global] Instance M_ret : MRet M := @ret.
#[global] Instance M_bind : MBind M := fun A B f m => bind m f.

Definition print (line : pystr) : M unit := emit (EPrint line).

Definition trace {A} (m : M A) : list effect := fst m.
Definition outcome {A} (m : M A) : result A := snd m.

(** ** The clock *)

(** A [datetime]; its fields are within the usual calendar ranges. *)
Record datetime := DateTime {
  year : N; month : N; day : N;
  hour : N; minute : N; second : N; microsecond : N }.

Definition colon : char := 58.

(** [dt.strftime("%H:%M:%S.%f")] *)
Definition strftime_HMSf (dt : datetime) : pystr :=
  dec 2 (hour dt) ++ [colon] ++ dec 2 (minute dt) ++ [colon] ++
  dec 2 (second dt) ++ lit "." ++ dec 6 (microsecond dt).

(** [dt.strftime("%d/%m/%Y , %H:%M:%S")] *)
Definition strftime_dmY_HMS (dt : datetime) : pystr :=
  dec 2 (day dt) ++ lit "/" ++ dec 2 (month dt) ++ lit "/" ++ dec 4 (year dt) ++
  lit " , " ++
  dec 2 (hour dt) ++ [colon] ++ dec 2 (minute dt) ++ [colon] ++ dec 2 (second dt).

(** ** The program *)

(** [os.environ[env_var]], lines 12-18. *)
Definition get_env_var (environ : gmap pystr pystr) (env_var : pystr) : M pystr :=
  match environ !! env_var with
  | Some value => mret value
  | None =>
      print (lit "Missing environment variable: " ++ env_var);;
      raise (KeyError env_var)
  end.

(** A dict whose iteration order matters: an association list in
    insertion order.  [dict_set] is [d[key] = value] for a key already
    present (the position is kept). *)
Definition dict := list (pystr * pystr).

Fixpoint dict_set (d : dict) (key value : pystr) : dict :=
  match d with
  | [] => [(key, value)]
  | (k, v) :: d' =>
      if bool_decide (k = key) then (k, value) :: d'
      else (k, v) :: dict_set d' key value
  end.

Fixpoint dict_get (d : dict) (key : pystr) : option pystr :=
  match d with
  | [] => None
  | (k, v) :: d' => if bool_decide (k = key) then Some v else dict_get d' key
  end.

(** [d[key]] *)
Definition dict_getitem (d : dict) (key : pystr) : M pystr :=
  match dict_get d key with
  | Some v => mret v
  | None => raise (KeyError key)
  end.

(** The [for key in env_const_dict] loop of lines 28-29, over the keys
    still to visit. *)
Fixpoint get_env_consts_loop (environ : gmap pystr pystr)
    (keys : list pystr) (env_const_dict : dict) : M dict :=
  match keys with
  | [] => mret env_const_dict
  | key :: keys' =>
      value ← get_env_var environ key;
      get_env_consts_loop environ keys' (dict_set env_const_dict key value)
  end.

(** The dict literal of lines 23-26. *)
Definition env_const_dict_init : dict :=
  [(lit "IP_USERNAME", []); (lit "IP_PASSWORD", [])].

(** Lines 21-31. *)
Definition get_env_consts (environ : gmap pystr pystr) : M dict :=
  get_env_consts_loop environ (env_const_dict_init.*1) env_const_dict_init.

(** What the browser does during one call of [get_signature]: either
    its [step]-th call raises (call 0 is the entry of
    [async_playwright()], before any browser is launched), or every call
    succeeds and
    [soup.find("script")] is [None] (no script tag) or a tag with the
    given text. *)
Inductive browser_outcome :=
| BrowserRaised (step : nat) (e : exn)
| PageLoaded (script_tag : option pystr).

(** Call number [step] to the browser. *)
Definition browser_call (b : browser_outcome) (step : nat) (op : browser_op) : M unit :=
  emit (EBrowser op);;
  match b with
  | BrowserRaised n e => if bool_decide (n = step) then raise e else mret tt
  | PageLoaded _ => mret tt
  end.

(** Lines 58-64: from the result of [soup.find("script")] to the
    signature. *)
Definition extract_signature (found : option pystr) : M pystr :=
  match found with
  | None => raise AttributeError
  | Some script_tag =>
      match split semicolon (Some 1%nat) script_tag !! 0%nat with
      | None => raise IndexError
      | Some sig_plus_wrap =>
          match split apostrophe None sig_plus_wrap !! 1%nat with
          | None => raise IndexError
          | Some signature => mret signature
          end
      end
  end.

(** Lines 34-64. *)
Definition get_signature (env_consts : dict) (b : browser_outcome) : M pystr :=
  browser_call b 0 AsyncPlaywright;;
  browser_call b 1 (LaunchPersistentContext (lit "persistent_context"));;
  browser_call b 2 NewPage;;
  browser_call b 3 (Goto (lit "https://idle-pixel.com/login/"));;
  username ← dict_getitem env_consts (lit "IP_USERNAME");
  browser_call b 4 (Fill (lit "[id=id_username]") username);;
  password ← dict_getitem env_consts (lit "IP_PASSWORD");
  browser_call b 5 (Fill (lit "[id=id_password]") password);;
  browser_call b 6 (Click (lit "[id=login-submit-button]"));;
  browser_call b 7 Content;;
  match b with
  | BrowserRaised _ e => raise e
  | PageLoaded found => extract_signature found
  end.

(** Lines 119-131. [utcnow] is what [datetime.utcnow()] returns. *)
Definition log_ws_message (raw_message : pystr) (received : bool)
    (utcnow : datetime) : M unit :=
  let md := {| md_time := drop_last 3 (strftime_HMSf utcnow);
               md_length := length raw_message;
               md_message := raw_message;
               md_received := received |} in
  emit (EMessageData md);;
  let direction_indicator := if received then [down_arrow] else [up_arrow] in
  let formatted_output :=
    direction_indicator ++ lit "[" ++ md_time md ++ lit "] " ++ md_message md in
  print formatted_output.

(** Lines 67-76. *)
Definition on_ws_message (raw_message : pystr) (utcnow : datetime) : M unit :=
  log_ws_message raw_message true utcnow.

(** Lines 79-95. [now] is what [datetime.now()] returns. *)
Definition on_ws_error (error : exn) (now : datetime) : M unit :=
  if isinstance error (lit "WebSocketConnectionClosedException")
  then print (lit "Connection closed. Retrying...")
  else
    print (strftime_dmY_HMS now);;
    print (exc_str error);;
    emit (EPrintTb error).

(** Lines 98-100. *)
Definition on_ws_close (close_status_code : option Z) (close_msg : option pystr) : M unit :=
  print (lit "### closed ###").

(** [ws.send(frame)]: the call, and the exception it raises if any. *)
Definition ws_send (send_exn : option exn) (frame : pystr) : M unit :=
  emit (ESend frame);;
  match send_exn with
  | Some e => raise e
  | None => mret tt
  end.

(** Lines 103-116. *)
Definition on_ws_open (env_consts : dict) (b : browser_outcome)
    (send_exn : option exn) : M unit :=
  print (lit "Opened connection.");;
  print (lit "Acquiring signature...");;
  signature ← get_signature env_consts b;
  print (lit "Signature acquired.");;
  print (lit "Logging in...");;
  ws_send send_exn (lit "LOGIN=" ++ signature).

(** ** The transport *)

(** What the websocket library delivers to the callbacks, with what the
    outside world answers while the callback runs. *)
Inductive event :=
| EvOpen (b : browser_outcome) (send_exn : option exn) (now : datetime)
| EvMessage (raw_message : pystr) (utcnow : datetime)
| EvError (error : exn) (now : datetime)
| EvClose (close_status_code : option Z) (close_msg : option pystr).

Definition handler (env_consts : dict) (ev : event) : M unit :=
  match ev with
  | EvOpen b send_exn _ => on_ws_open env_consts b send_exn
  | EvMessage raw_message utcnow => on_ws_message raw_message utcnow
  | EvError error now => on_ws_error error now
  | EvClose code msg => on_ws_close code msg
  end.

Definition event_now (ev : event) : datetime :=
  match ev with
  | EvOpen _ _ now | EvMessage _ now | EvError _ now => now
  | EvClose _ _ => DateTime 0 0 0 0 0 0 0
  end.

(** One delivery.  The callbacks are not called by the program but by
    the websocket-client library (outside this repository), whose
    [WebSocketApp._callback] runs each of them inside
    [try ... except Exception as e] and hands [e] to the [on_error]
    callback; the connection stays as it is. *)
Definition callback (env_consts : dict) (ev : event) : list effect :=
  match handler env_consts ev with
  | (tr, Ok _) => tr
  | (tr, Raised e) => tr ++ trace (on_ws_error e (event_now ev))
  end.

(** The callbacks for a sequence of events, in order. *)
Definition run (env_consts : dict) (evs : list event) : list effect :=
  flat_map (callback env_consts) evs.

Definition emit_all (tr : list effect) : M unit := (tr, Ok tt).

(** Lines 134-148.  [during_run_forever] are the events delivered before
    [run_forever] returns, [during_dispatch] those delivered by
    [rel.dispatch()]. *)
Definition main (environ : gmap pystr pystr)
    (during_run_forever during_dispatch : list event) : M unit :=
  env_consts ← get_env_consts environ;
  emit (EEnableTrace false);;
  emit (ERunForever {| rf_url := lit "wss://server1.idle-pixel.com";
                       rf_dispatcher_rel := true;
                       rf_reconnect := 120;
                       rf_cert_reqs_none := true |});;
  emit_all (run env_consts during_run_forever);;
  emit (ERelSignal 2);;
  emit ERelDispatch;;
  emit_all (run env_consts during_dispatch).

(** ** Observations on a trace *)

(** Calls of [get_signature]: each one starts by entering
    [async_playwright()], whether or not that succeeds. *)
Definition acquisitions (tr : list effect) : nat :=
  length (omap (fun x => match x with
                         | EBrowser AsyncPlaywright => Some tt
                         | _ => None
                         end) tr).

(** Launches of the browser. *)
Definition launches (tr : list effect) : nat :=
  length (omap (fun x => match x with
                         | EBrowser (LaunchPersistentContext d) => Some d
                         | _ => None
                         end) tr).

Definition sent_frames (tr : list effect) : list pystr :=
  omap (fun x => match x with ESend frame => Some frame | _ => None end) tr.

(** The dicts built by the frame logger, one per call. *)
Definition logged (tr : list effect) : list message_data :=
  omap (fun x => match x with EMessageData md => Some md | _ => None end) tr.

Definition printed (tr : list effect) : list pystr :=
  omap (fun x => match x with EPrint line => Some line | _ => None end) tr.

(** The frames of a trace, sent and logged, in order. *)
Inductive frame_record :=
| FrameSent (frame : pystr)
| FrameLogged (md : message_data).

Definition frame_log (tr : list effect) : list frame_record :=
  omap (fun x => match x with
                 | ESend frame => Some (FrameSent frame)
                 | EMessageData md => Some (FrameLogged md)
                 | _ => None
                 end) tr.

Definition sent_of (r : frame_record) : option pystr :=
  match r with FrameSent frame => Some frame | FrameLogged _ => None end.

Definition logged_of (r : frame_record) : option message_data :=
  match r with FrameLogged md => Some md | FrameSent _ => None end.

Definition is_login (frame : pystr) : bool :=
  bool_decide (lit "LOGIN=" `prefix_of` frame).

(** No frame is logged as inbound before a LOGIN frame has been sent;
    [login_sent] tells whether one has been sent already. *)
Fixpoint login_precedes_inbound (login_sent : bool) (fl : list frame_record) : bool :=
  match fl with
  | [] => true
  | FrameSent frame :: fl' => login_precedes_inbound (login_sent || is_login frame) fl'
  | FrameLogged md :: fl' =>
      (negb (md_received md) || login_sent) && login_precedes_inbound login_sent fl'
  end.

(** Effects that reach the network. *)
Definition is_network (x : effect) : bool :=
  match x with
  | EBrowser _ | ESend _ | ERunForever _ => true
  | _ => false
  end.

Definition is_open (ev : event) : bool :=
  match ev with EvOpen _ _ _ => true | _ => false end.

(** The first key, in iteration order, that [os.environ] lacks. *)
Definition first_missing (environ : gmap pystr pystr) (keys : list pystr) : option pystr :=
  List.find (fun key => bool_decide (environ !! key = None)) keys.

(** ** The extraction, as the specification words it *)

(** [s] up to its first [c] (all of [s] when it has none). *)
Fixpoint before_first (c : char) (s : pystr) : pystr :=
  match s with
  | [] => []
  | x :: s' => if bool_decide (x = c) then [] else x :: before_first c s'
  end.

(** What follows the first [c] of [s], if it has one. *)
Fixpoint after_first (c : char) (s : pystr) : option pystr :=
  match s with
  | [] => None
  | x :: s' => if bool_decide (x = c) then Some s' else after_first c s'
  end.

(** The substring lying between the first and the second [c] of [s]. *)
Definition between_first_and_second (c : char) (s : pystr) : option pystr :=
  match after_first c s with
  | None => None
  | Some r => match after_first c r with
              | None => None
              | Some _ => Some (before_first c r)
              end
  end.

(** "content up to the first semicolon, then the first single-quoted
    literal within it" *)
Definition first_quoted_literal (script_tag : pystr) : option pystr :=
  between_first_and_second apostrophe (before_first semicolon script_tag).

(** [HH:MM:SS.mmm] of a [datetime]. *)
Definition hms_mmm (dt : datetime) : pystr :=
  dec 2 (hour dt) ++ [colon] ++ dec 2 (minute dt) ++ [colon] ++
  dec 2 (second dt) ++ lit "." ++ dec 3 (microsecond dt / 1000).

(** Two digits, a colon, two digits, a colon, two digits, a dot, three
    digits. *)
Definition hms_mmm_shape (s : pystr) : bool :=
  match s with
  | [h1; h2; c1; m1; m2; c2; s1; s2; dot; f1; f2; f3] =>
      forallb is_digit [h1; h2; m1; m2; s1; s2; f1; f2; f3] &&
      bool_decide (c1 = colon) && bool_decide (c2 = colon) && bool_decide (dot = 46)
  | _ => false
  end.

(** ** Observations on a whole run *)

(** The frame an open event makes the program send, if any. *)
Definition login_frame_of (env_consts : dict) (ev : event) : option pystr :=
  match ev with
  | EvOpen b _ _ =>
      match outcome (get_signature env_consts b) with
      | Ok signature => Some (lit "LOGIN=" ++ signature)
      | Raised _ => None
      end
  | _ => None
  end.

(** The entry the frame logger builds for a message event. *)
Definition entry_of (ev : event) : option message_data :=
  match ev with
  | EvMessage raw_message utcnow =>
      Some {| md_time := hms_mmm utcnow;
              md_length := length raw_message;
              md_message := raw_message;
              md_received := true |}
  | _ => None
  end.

(** The form fields the browser was asked to fill, with the values. *)
Definition fills (tr : list effect) : list (pystr * pystr) :=
  omap (fun x => match x with
                 | EBrowser (Fill selector value) => Some (selector, value)
                 | _ => None
                 end) tr.

(** A filled field is the username field with the environment's
    IP_USERNAME, or the password field with its IP_PASSWORD. *)
Definition fill_from_environ (environ : gmap pystr pystr) (f : pystr * pystr) : Prop :=
  (f.1 = lit "[id=id_username]" /\ environ !! lit "IP_USERNAME" = Some f.2) \/
  (f.1 = lit "[id=id_password]" /\ environ !! lit "IP_PASSWORD" = Some f.2).

Definition fill_from_dict (env_consts : dict) (f : pystr * pystr) : Prop :=
  (f.1 = lit "[id=id_username]" /\ dict_get env_consts (lit "IP_USERNAME") = Some f.2) \/
  (f.1 = lit "[id=id_password]" /\ dict_get env_consts (lit "IP_PASSWORD") = Some f.2).


(** The time-of-day fields of a [datetime] are within their ranges. *)
Definition valid_time (dt : datetime) : Prop :=
  hour dt < 24 /\ minute dt < 60 /\ second dt < 60 /\ microsecond dt < 1000000.


(** An open event during which [async_playwright()] was entered
    successfully, so that the browser launch was reached. *)
Definition playwright_started (ev : event) : bool :=
  match ev with
  | EvOpen (BrowserRaised O _) _ _ => false
  | EvOpen _ _ _ => true
  | _ => false
  end.

(** ** Standard output as text *)

Definition line_feed : char := 10.

(** What the prints of a trace write on standard output: [print(x)]
    writes the text of [x] and a line feed. *)
Fixpoint stdout (tr : list effect) : pystr :=
  match tr with
  | [] => []
  | EPrint line :: tr' => line ++ line_feed :: stdout tr'
  | _ :: tr' => stdout tr'
  end.

(** The number of lines of an output text that ends with a line feed. *)
Definition line_count (out : pystr) : nat := count line_feed out.

(** ** Inputs used in the examples *)

Definition env_consts_ex : dict :=
  [(lit "IP_USERNAME", lit "user"); (lit "IP_PASSWORD", lit "secret")].

Definition clock_ex : datetime := DateTime 2024 1 2 3 4 5 678901.

(** * Properties *)

(** ** Strings *)

Example split_default :
  split apostrophe None (lit "a'b'c") = [lit "a"; lit "b"; lit "c"].
Proof. reflexivity. Qed.

Example split_max1 :
  split semicolon (Some 1%nat) (lit "a;b;c") = [lit "a"; lit "b;c"].
Proof. reflexivity. Qed.

Example split_no_separator : split apostrophe None (lit "abc") = [lit "abc"].
Proof. reflexivity. Qed.

Section Split.
Variable sep : char.

Lemma split_not_nil ms s : split sep ms s <> [].
Proof.
  destruct s as [|c s]; simpl; [discriminate|].
  destruct (bool_decide (c = sep) && negb (bool_decide (ms = Some O))); [discriminate|].
  destruct (split sep ms s); discriminate.
Qed.

(** [s.split(sep, 1)[0]] is [s] up to its first [sep]. *)
Lemma split_once_head s :
  split sep (Some 1%nat) s !! 0%nat = Some (before_first sep s).
Proof.
  induction s as [|c s IH]; [reflexivity|].
  simpl. destruct (bool_decide (c = sep)); simpl; [reflexivity|].
  destruct (split sep (Some 1%nat) s) as [|piece pieces]; simpl in *.
  - discriminate.
  - congruence.
Qed.

(** [s.split(sep)]: the piece before the first [sep], then the pieces
    of what follows it. *)
Lemma split_unfold s :
  split sep None s =
  before_first sep s ::
    match after_first sep s with
    | None => []
    | Some r => split sep None r
    end.
Proof.
  induction s as [|c s IH]; [reflexivity|].
  simpl. destruct (bool_decide (c = sep)); simpl; [reflexivity|].
  rewrite IH. reflexivity.
Qed.

(** [s.split(sep)[1]] exists exactly when [s] has a [sep], and is then
    what lies between that [sep] and the next one (or the end). *)
Lemma split_second s :
  split sep None s !! 1%nat = before_first sep <$> after_first sep s.
Proof.
  rewrite split_unfold. simpl.
  destruct (after_first sep s) as [r|]; [|reflexivity].
  rewrite split_unfold. reflexivity.
Qed.

Lemma after_first_None s : after_first sep s = None <-> count sep s = O.
Proof.
  induction s as [|c s IH]; simpl; [tauto|].
  destruct (bool_decide (c = sep)); simpl; [|exact IH].
  split; discriminate.
Qed.

End Split.

Section Pieces.
Variable c : char.

Lemma before_after_first s :
  s = before_first c s ++
      match after_first c s with Some r => c :: r | None => [] end.
Proof.
  induction s as [|x s IH]; [reflexivity|].
  simpl. case_bool_decide as Hx; simpl.
  - subst x. reflexivity.
  - f_equal. exact IH.
Qed.

Lemma count_before_first s : count c (before_first c s) = O.
Proof.
  induction s as [|x s IH]; [reflexivity|].
  simpl. case_bool_decide as Hx; [reflexivity|].
  simpl. rewrite bool_decide_eq_false_2 by exact Hx. exact IH.
Qed.

Lemma count_app d s t : count d (s ++ t) = (count d s + count d t)%nat.
Proof.
  induction s as [|x s IH]; [reflexivity|].
  simpl. rewrite IH. lia.
Qed.

Lemma before_first_absent s : count c s = O -> before_first c s = s.
Proof.
  induction s as [|x s IH]; [reflexivity|].
  simpl. case_bool_decide as Hx; [discriminate|].
  simpl. intros Hc. f_equal. auto.
Qed.

Lemma before_first_app s t : count c s = O -> before_first c (s ++ c :: t) = s.
Proof.
  induction s as [|x s IH]; simpl.
  - intros _. rewrite bool_decide_eq_true_2; reflexivity.
  - case_bool_decide as Hx; [discriminate|].
    simpl. intros Hc. f_equal. auto.
Qed.

End Pieces.

(** The extraction of lines 58-64 in closed form. *)
Lemma extract_signature_Some script_tag :
  extract_signature (Some script_tag) =
  match after_first apostrophe (before_first semicolon script_tag) with
  | Some r => mret (before_first apostrophe r)
  | None => raise IndexError
  end.
Proof.
  unfold extract_signature.
  rewrite split_once_head, split_second.
  destruct (after_first apostrophe (before_first semicolon script_tag));
    reflexivity.
Qed.

(** ** The monad *)

Lemma bind_Ok {A B} (m : M A) (f : A -> M B) a :
  outcome m = Ok a ->
  m ≫= f = (trace m ++ trace (f a), outcome (f a)).
Proof.
  destruct m as [tr r]; simpl; intros ->.
  unfold mbind, M_bind, bind. destruct (f a); reflexivity.
Qed.

Lemma bind_Raised {A B} (m : M A) (f : A -> M B) e :
  outcome m = Raised e ->
  m ≫= f = (trace m, Raised e).
Proof. destruct m as [tr r]; simpl; intros ->. reflexivity. Qed.

(** ** The signature acquirer *)

Lemma extract_signature_trace found : trace (extract_signature found) = [].
Proof.
  destruct found as [script_tag|]; [|reflexivity].
  rewrite extract_signature_Some.
  destruct (after_first apostrophe (before_first semicolon script_tag));
    reflexivity.
Qed.

Ltac run_get_signature :=
  unfold get_signature, browser_call, dict_getitem;
  repeat match goal with
         | |- context [dict_get ?d ?k] => destruct (dict_get d k)
         | |- context [extract_signature ?f] =>
             let H := fresh in
             pose proof (extract_signature_trace f) as H;
             destruct (extract_signature f); simpl in H; subst
         end;
  try reflexivity.

(** One call of [get_signature] enters [async_playwright()] once,
    however it ends, and neither sends nor logs a frame. *)
Lemma get_signature_acquisitions env_consts b :
  acquisitions (trace (get_signature env_consts b)) = 1%nat.
Proof.
  destruct b as [n e|found].
  - destruct n as [|[|[|[|[|[|[|[|n]]]]]]]]; run_get_signature.
  - run_get_signature.
Qed.

Lemma get_signature_frame_log env_consts b :
  frame_log (trace (get_signature env_consts b)) = [].
Proof.
  destruct b as [n e|found].
  - destruct n as [|[|[|[|[|[|[|[|n]]]]]]]]; run_get_signature.
  - run_get_signature.
Qed.

(** With both credentials in [env_consts] and a browser that does not
    fail, the result is that of the extraction. *)
Lemma get_signature_page env_consts username password found :
  dict_get env_consts (lit "IP_USERNAME") = Some username ->
  dict_get env_consts (lit "IP_PASSWORD") = Some password ->
  outcome (get_signature env_consts (PageLoaded found)) =
  outcome (extract_signature found).
Proof.
  intros Hu Hp. unfold get_signature, browser_call, dict_getitem.
  rewrite Hu, Hp. destruct (extract_signature found); reflexivity.
Qed.

Example extract_typical :
  extract_signature (Some (lit "var s = 'abc123'; start('x');")) = mret (lit "abc123").
Proof. reflexivity. Qed.

Example extract_no_semicolon :
  extract_signature (Some (lit "var s = 'abc123'")) = mret (lit "abc123").
Proof. reflexivity. Qed.

(** The claim C8 fails for a text whose first quoted literal holds a
    semicolon: the part before the first semicolon then has one
    apostrophe only, no quoted literal lies in it, and yet a signature is
    returned, the text between that apostrophe and the semicolon. *)
Lemma signature_without_quoted_literal :
  first_quoted_literal (lit "var s='a;b'; go();") = None /\
  extract_signature (Some (lit "var s='a;b'; go();")) = mret (lit "a").
Proof. split; reflexivity. Qed.

(** C8 (amended): for every script-tag text, the extraction looks at the
    content up to the first semicolon.  When that content has at least
    two apostrophes, the signature is its first single-quoted literal,
    the substring lying between its first and second apostrophe; when it
    has exactly one, the signature is everything that follows the
    apostrophe in that content; when it has none, an IndexError is
    raised. *)
Theorem signature_is_first_quoted_literal script_tag :
  match first_quoted_literal script_tag with
  | Some literal => extract_signature (Some script_tag) = mret literal
  | None =>
      match after_first apostrophe (before_first semicolon script_tag) with
      | Some rest =>
          count apostrophe (before_first semicolon script_tag) = 1%nat /\
          extract_signature (Some script_tag) = mret rest
      | None =>
          count apostrophe (before_first semicolon script_tag) = O /\
          extract_signature (Some script_tag) = raise IndexError
      end
  end.
Proof.
  unfold first_quoted_literal, between_first_and_second.
  rewrite extract_signature_Some.
  set (prefix := before_first semicolon script_tag).
  destruct (after_first apostrophe prefix) as [r|] eqn:Hfirst.
  - destruct (after_first apostrophe r) as [r'|] eqn:Hsecond; [reflexivity|].
    apply after_first_None in Hsecond.
    split.
    + clear -Hfirst Hsecond. revert Hfirst.
      induction prefix as [|x prefix IH]; simpl; [discriminate|].
      case_bool_decide as Hx.
      * intros [= ->]. rewrite Hsecond. reflexivity.
      * intros H. rewrite (IH H). reflexivity.
    + f_equal. f_equal. clear -Hsecond.
      induction r as [|x r IH]; [reflexivity|].
      simpl in *. case_bool_decide as Hx; [discriminate|].
      f_equal. apply IH. exact Hsecond.
  - split; [|reflexivity]. apply after_first_None. exact Hfirst.
Qed.

Example signature_two_apostrophes :
  first_quoted_literal (lit "var s = 'abc123'; start('x');") = Some (lit "abc123") /\
  extract_signature (Some (lit "var s = 'abc123'; start('x');")) = mret (lit "abc123").
Proof. split; reflexivity. Qed.

(** The claim C10 fails when the prefix has exactly one apostrophe:
    [split("'")] then has two pieces and piece 1 is returned. *)
Lemma one_apostrophe_returns :
  split semicolon (Some 1%nat) (lit "x='abc") !! 0%nat = Some (lit "x='abc") /\
  count apostrophe (lit "x='abc") = 1%nat /\
  outcome (get_signature env_consts_ex (PageLoaded (Some (lit "x='abc")))) =
    Ok (lit "abc").
Proof. repeat split. Qed.

Lemma extract_signature_raises found :
  match found with
  | None => True
  | Some script_tag => count apostrophe (before_first semicolon script_tag) = O
  end ->
  extract_signature found =
  raise (match found with None => AttributeError | Some _ => IndexError end).
Proof.
  destruct found as [script_tag|]; [|reflexivity].
  intros H. apply after_first_None in H.
  rewrite extract_signature_Some, H. reflexivity.
Qed.

(** C10 (amended): signature extraction is partial.  When the first
    script tag's text, truncated at the first semicolon, contains no
    apostrophe, or the document has no script tag, the acquirer raises
    instead of returning a signature. *)
Theorem no_apostrophe_or_no_script_raises env_consts found :
  match found with
  | None => True
  | Some script_tag => count apostrophe (before_first semicolon script_tag) = O
  end ->
  exists e, outcome (get_signature env_consts (PageLoaded found)) = Raised e.
Proof.
  intros H. apply extract_signature_raises in H.
  unfold get_signature, browser_call, dict_getitem. rewrite H.
  destruct (dict_get env_consts (lit "IP_USERNAME")); [|eexists; reflexivity].
  destruct (dict_get env_consts (lit "IP_PASSWORD")); eexists; reflexivity.
Qed.

Lemma no_apostrophe_or_no_script_raises_witness :
  count apostrophe (before_first semicolon (lit "var s = 5; t = 'x';")) = O /\
  exists e,
    outcome (get_signature env_consts_ex
               (PageLoaded (Some (lit "var s = 5; t = 'x';")))) = Raised e.
Proof.
  split; [reflexivity|].
  apply (no_apostrophe_or_no_script_raises env_consts_ex
           (Some (lit "var s = 5; t = 'x';"))).
  reflexivity.
Defined.

(** ** The open handler *)

Lemma on_ws_open_returns env_consts b send_exn signature :
  outcome (get_signature env_consts b) = Ok signature ->
  on_ws_open env_consts b send_exn =
  ([EPrint (lit "Opened connection."); EPrint (lit "Acquiring signature...")] ++
   trace (get_signature env_consts b) ++
   [EPrint (lit "Signature acquired."); EPrint (lit "Logging in...");
    ESend (lit "LOGIN=" ++ signature)],
   match send_exn with Some e => Raised e | None => Ok tt end).
Proof.
  unfold on_ws_open.
  destruct (get_signature env_consts b) as [tr r]; simpl; intros ->.
  destruct send_exn; reflexivity.
Qed.

Lemma on_ws_open_raises env_consts b send_exn e :
  outcome (get_signature env_consts b) = Raised e ->
  on_ws_open env_consts b send_exn =
  ([EPrint (lit "Opened connection."); EPrint (lit "Acquiring signature...")] ++
   trace (get_signature env_consts b),
   Raised e).
Proof.
  unfold on_ws_open.
  destruct (get_signature env_consts b) as [tr r]; simpl; intros ->.
  reflexivity.
Qed.

Lemma acquisitions_app tr1 tr2 :
  acquisitions (tr1 ++ tr2) = (acquisitions tr1 + acquisitions tr2)%nat.
Proof. unfold acquisitions. rewrite omap_app, length_app. reflexivity. Qed.

Lemma frame_log_app tr1 tr2 : frame_log (tr1 ++ tr2) = frame_log tr1 ++ frame_log tr2.
Proof. apply omap_app. Qed.

Lemma sent_frames_app tr1 tr2 :
  sent_frames (tr1 ++ tr2) = sent_frames tr1 ++ sent_frames tr2.
Proof. apply omap_app. Qed.

Lemma logged_app tr1 tr2 : logged (tr1 ++ tr2) = logged tr1 ++ logged tr2.
Proof. apply omap_app. Qed.

(** The error handler prints; it touches neither the browser nor the
    transport nor the frame logger. *)
Lemma on_ws_error_quiet error now :
  acquisitions (trace (on_ws_error error now)) = O /\
  frame_log (trace (on_ws_error error now)) = [].
Proof.
  unfold on_ws_error.
  destruct (isinstance error (lit "WebSocketConnectionClosedException"));
    split; reflexivity.
Qed.

(** The trace of one delivery of the open event. *)
Lemma callback_open_trace env_consts b send_exn now :
  callback env_consts (EvOpen b send_exn now) =
  [EPrint (lit "Opened connection."); EPrint (lit "Acquiring signature...")] ++
  trace (get_signature env_consts b) ++
  match outcome (get_signature env_consts b) with
  | Ok signature =>
      [EPrint (lit "Signature acquired."); EPrint (lit "Logging in...");
       ESend (lit "LOGIN=" ++ signature)] ++
      match send_exn with
      | Some e => trace (on_ws_error e now)
      | None => []
      end
  | Raised e => trace (on_ws_error e now)
  end.
Proof.
  unfold callback, handler.
  destruct (outcome (get_signature env_consts b)) as [signature|e] eqn:H.
  - rewrite (on_ws_open_returns _ _ _ _ H).
    destruct send_exn; cbn [event_now]; rewrite <- ?app_assoc, ?app_nil_r;
      reflexivity.
  - rewrite (on_ws_open_raises _ _ _ _ H). cbn [event_now].
    rewrite <- app_assoc. reflexivity.
Qed.

(** What one delivery of the open event does, when the acquirer returns. *)
Lemma callback_open_returns env_consts b send_exn now signature :
  outcome (get_signature env_consts b) = Ok signature ->
  exists pre post,
    callback env_consts (EvOpen b send_exn now) =
      pre ++ ESend (lit "LOGIN=" ++ signature) :: post /\
    acquisitions pre = 1%nat /\ frame_log pre = [] /\
    acquisitions post = O /\ frame_log post = [].
Proof.
  intros H. unfold callback, handler.
  rewrite (on_ws_open_returns _ _ _ _ H).
  exists ([EPrint (lit "Opened connection."); EPrint (lit "Acquiring signature...")] ++
          trace (get_signature env_consts b) ++
          [EPrint (lit "Signature acquired."); EPrint (lit "Logging in...")]).
  exists (match send_exn with
          | Some e => trace (on_ws_error e now)
          | None => []
          end).
  repeat split.
  - destruct send_exn; simpl; rewrite <- ?app_assoc; simpl;
      rewrite <- ?app_assoc, ?app_nil_r; reflexivity.
  - rewrite !acquisitions_app, get_signature_acquisitions. reflexivity.
  - rewrite !frame_log_app, get_signature_frame_log. reflexivity.
  - destruct send_exn; [apply on_ws_error_quiet | reflexivity].
  - destruct send_exn; [apply on_ws_error_quiet | reflexivity].
Qed.

(** Events other than open send nothing: their frames are the logged
    ones. *)
Lemma callback_not_open env_consts ev :
  is_open ev = false ->
  acquisitions (callback env_consts ev) = O /\
  exists mds, frame_log (callback env_consts ev) = FrameLogged <$> mds /\
              Forall (fun md => md_received md = true) mds.
Proof.
  destruct ev as [b send_exn now|raw_message utcnow|error now|code msg];
    [discriminate| | |]; intros _; unfold callback, handler.
  - split; [reflexivity|]. eexists [_]. split; [reflexivity|].
    repeat constructor.
  - unfold on_ws_error.
    destruct (isinstance error (lit "WebSocketConnectionClosedException"));
      (split; [reflexivity|]); exists []; split; constructor.
  - split; [reflexivity|]. exists []. split; constructor.
Qed.

Lemma run_cons env_consts ev evs :
  run env_consts (ev :: evs) = callback env_consts ev ++ run env_consts evs.
Proof. reflexivity. Qed.

Lemma run_not_open env_consts evs :
  Forall (fun ev => is_open ev = false) evs ->
  acquisitions (run env_consts evs) = O /\
  exists mds, frame_log (run env_consts evs) = FrameLogged <$> mds /\
              Forall (fun md => md_received md = true) mds.
Proof.
  induction 1 as [|ev evs Hev _ [IHa (mds & IHf & IHr)]]; rewrite ?run_cons.
  - split; [reflexivity|]. exists []. split; constructor.
  - destruct (callback_not_open env_consts ev Hev) as [Ha (mds0 & Hf & Hr)].
    split.
    + rewrite acquisitions_app, Ha, IHa. reflexivity.
    + exists (mds0 ++ mds). rewrite frame_log_app, Hf, IHf, fmap_app.
      split; [reflexivity|]. apply Forall_app; auto.
Qed.

Lemma sent_frames_frame_log tr : sent_frames tr = omap sent_of (frame_log tr).
Proof.
  induction tr as [|x tr IH]; [reflexivity|].
  destruct x; simpl; fold (sent_frames tr); fold (frame_log tr);
    rewrite ?IH; reflexivity.
Qed.

Lemma omap_sent_of_logged mds : omap sent_of (FrameLogged <$> mds) = [].
Proof. induction mds; simpl; auto. Qed.

(** The claim C1 fails when the acquirer raises: the open handler has
    made its one acquisition, and the session goes on without any frame
    having been sent. *)
Lemma no_login_when_acquirer_raises :
  let tr := run env_consts_ex
              [EvOpen (PageLoaded (Some (lit "var s = 5;"))) None clock_ex;
               EvMessage (lit "PING") clock_ex;
               EvClose None None] in
  outcome (get_signature env_consts_ex (PageLoaded (Some (lit "var s = 5;")))) =
    Raised IndexError /\
  acquisitions tr = 1%nat /\
  sent_frames tr = [] /\
  exists md, frame_log tr = [FrameLogged md].
Proof. repeat split. eexists. reflexivity. Qed.

(** C1 (amended): in every session (the open event and whatever the
    transport delivers until the next open) the open handler performs
    exactly one signature acquisition, whether it returns or raises.
    When the acquirer returns a signature, exactly one outbound frame is
    sent, which is "LOGIN=" followed by the signature as returned; the
    acquisition comes before the send, and no frame is sent or logged
    before it.  When the acquirer raises, no frame is sent in that
    session. *)
Theorem login_is_first_frame env_consts b send_exn now rest :
  Forall (fun ev => is_open ev = false) rest ->
  let tr := run env_consts (EvOpen b send_exn now :: rest) in
  acquisitions tr = 1%nat /\
  match outcome (get_signature env_consts b) with
  | Ok signature =>
      sent_frames tr = [lit "LOGIN=" ++ signature] /\
      (exists pre post,
         tr = pre ++ ESend (lit "LOGIN=" ++ signature) :: post /\
         acquisitions pre = 1%nat /\ frame_log pre = []) /\
      (exists mds, frame_log tr =
                     FrameSent (lit "LOGIN=" ++ signature) :: (FrameLogged <$> mds))
  | Raised _ => sent_frames tr = []
  end.
Proof.
  intros Hrest tr.
  destruct (run_not_open env_consts rest Hrest) as [Hrest_a (mds & Hrest_f & _)].
  assert (Hrest_s : sent_frames (run env_consts rest) = []).
  { rewrite sent_frames_frame_log, Hrest_f. apply omap_sent_of_logged. }
  split.
  - subst tr. rewrite run_cons, callback_open_trace, !acquisitions_app,
      get_signature_acquisitions, Hrest_a.
    destruct (outcome (get_signature env_consts b)) as [signature|e].
    + rewrite acquisitions_app.
      destruct send_exn; rewrite ?(proj1 (on_ws_error_quiet _ _)); reflexivity.
    + rewrite (proj1 (on_ws_error_quiet _ _)). reflexivity.
  - destruct (outcome (get_signature env_consts b)) as [signature|e] eqn:Hsig.
    + destruct (callback_open_returns env_consts b send_exn now signature Hsig)
        as (pre & post & Hcb & Hpre_a & Hpre_f & Hpost_a & Hpost_f).
      assert (Hfl : frame_log tr =
                FrameSent (lit "LOGIN=" ++ signature) :: (FrameLogged <$> mds)).
      { subst tr. rewrite run_cons, Hcb, !frame_log_app, Hpre_f.
        change (ESend (lit "LOGIN=" ++ signature) :: post)
          with ([ESend (lit "LOGIN=" ++ signature)] ++ post).
        rewrite frame_log_app, Hpost_f, Hrest_f. reflexivity. }
      repeat split.
      * rewrite sent_frames_frame_log, Hfl. simpl.
        rewrite omap_sent_of_logged. reflexivity.
      * exists pre, (post ++ run env_consts rest). subst tr.
        rewrite run_cons, Hcb, <- app_assoc. auto.
      * exists mds. exact Hfl.
    + subst tr.
      rewrite run_cons, callback_open_trace, Hsig, !sent_frames_app, Hrest_s.
      rewrite !(sent_frames_frame_log (trace _)), get_signature_frame_log,
        (proj2 (on_ws_error_quiet _ _)).
      reflexivity.
Qed.

Lemma login_is_first_frame_witness :
  let b := PageLoaded (Some (lit "var s = 'abc123';")) in
  let rest := [EvMessage (lit "PING") clock_ex; EvClose None None] in
  let tr := run env_consts_ex (EvOpen b None clock_ex :: rest) in
  Forall (fun ev => is_open ev = false) rest /\
  acquisitions tr = 1%nat /\
  sent_frames tr = [lit "LOGIN=" ++ lit "abc123"] /\
  (exists pre post,
     tr = pre ++ ESend (lit "LOGIN=" ++ lit "abc123") :: post /\
     acquisitions pre = 1%nat /\ frame_log pre = []) /\
  (exists mds, frame_log tr = FrameSent (lit "LOGIN=" ++ lit "abc123") :: (FrameLogged <$> mds)).
Proof.
  intros b rest tr.
  assert (H : Forall (fun ev => is_open ev = false) rest)
    by (repeat constructor).
  split; [exact H|].
  exact (login_is_first_frame env_consts_ex b None clock_ex rest H).
Defined.

Example end_to_end_login_frame :
  sent_frames (run env_consts_ex
                 [EvOpen (PageLoaded (Some (lit "var s = 'abc123';"))) None clock_ex;
                  EvMessage (lit "PING") clock_ex]) = [lit "LOGIN=abc123"].
Proof. reflexivity. Qed.

(** The claim C2 fails: an empty signature is returned by the acquirer
    for a page whose script starts with an empty quoted literal, and the
    open handler sends "LOGIN=" and returns normally. *)
Lemma empty_signature_is_sent :
  outcome (get_signature env_consts_ex (PageLoaded (Some (lit "var s = '';")))) = Ok [] /\
  sent_frames (trace (on_ws_open env_consts_ex
                        (PageLoaded (Some (lit "var s = '';"))) None)) = [lit "LOGIN="] /\
  outcome (on_ws_open env_consts_ex
             (PageLoaded (Some (lit "var s = '';"))) None) = Ok tt.
Proof. repeat split. Qed.

(** C2 (amended): the open handler sends whatever string the acquirer
    returns, the empty one included, as the frame "LOGIN=" followed by
    that string, and then ends as [ws.send] ends, with no error of its
    own; only an exception raised by the acquirer keeps the LOGIN frame
    from being sent, and that exception leaves the handler. *)
Theorem login_sent_unless_acquirer_raises env_consts b send_exn :
  match outcome (get_signature env_consts b) with
  | Ok signature =>
      sent_frames (trace (on_ws_open env_consts b send_exn)) =
        [lit "LOGIN=" ++ signature] /\
      outcome (on_ws_open env_consts b send_exn) =
        match send_exn with Some e => Raised e | None => Ok tt end
  | Raised e =>
      sent_frames (trace (on_ws_open env_consts b send_exn)) = [] /\
      outcome (on_ws_open env_consts b send_exn) = Raised e
  end.
Proof.
  pose proof (get_signature_frame_log env_consts b) as Hfl.
  destruct (outcome (get_signature env_consts b)) as [signature|e] eqn:H.
  - rewrite (on_ws_open_returns _ _ _ _ H). simpl.
    rewrite sent_frames_app, (sent_frames_frame_log (trace _)), Hfl.
    split; reflexivity.
  - rewrite (on_ws_open_raises _ _ _ _ H). simpl.
    rewrite (sent_frames_frame_log (trace _)), Hfl. split; reflexivity.
Qed.

(** ** Inbound frames *)

Lemma login_precedes_inbound_sent fl : login_precedes_inbound true fl = true.
Proof.
  induction fl as [|[frame|md] fl IH]; simpl; [reflexivity|exact IH|].
  rewrite IH, orb_true_r. reflexivity.
Qed.

Lemma is_login_LOGIN signature : is_login (lit "LOGIN=" ++ signature) = true.
Proof. apply bool_decide_eq_true. apply prefix_app_r. reflexivity. Qed.

(** The claim C3 fails when the acquirer raises: the open handler sends
    nothing, the exception goes to the error handler, and the next
    inbound frame is logged although no LOGIN frame was sent. *)
Lemma inbound_logged_without_login :
  let tr := run env_consts_ex
              [EvOpen (PageLoaded (Some (lit "var s = 5;"))) None clock_ex;
               EvMessage (lit "PING") clock_ex] in
  sent_frames tr = [] /\
  (exists md, logged tr = [md] /\ md_received md = true /\ md_message md = lit "PING") /\
  login_precedes_inbound false (frame_log tr) = false.
Proof.
  repeat split. eexists. repeat split.
Qed.

(** C3 (amended): every inbound frame is handed to the frame logger with
    direction inbound and nothing else happens (no send, no browser call,
    the handler returns); and in a session whose open handler obtained a
    signature, no frame is logged as inbound before the LOGIN frame has
    been sent, whatever the transport delivers after the open event. *)
Theorem inbound_logged_after_login env_consts b send_exn now signature rest :
  outcome (get_signature env_consts b) = Ok signature ->
  (forall raw_message utcnow,
     on_ws_message raw_message utcnow = log_ws_message raw_message true utcnow /\
     outcome (on_ws_message raw_message utcnow) = Ok tt /\
     (exists md line, trace (on_ws_message raw_message utcnow) =
                        [EMessageData md; EPrint line] /\
                      md_received md = true /\ md_message md = raw_message)) /\
  login_precedes_inbound false
    (frame_log (run env_consts (EvOpen b send_exn now :: rest))) = true.
Proof.
  intros Hsig. split.
  - intros raw_message utcnow. repeat split. eexists _, _. repeat split.
  - destruct (callback_open_returns env_consts b send_exn now signature Hsig)
      as (pre & post & Hcb & _ & Hpre_f & _ & _).
    rewrite run_cons, Hcb, <- app_assoc, frame_log_app, Hpre_f.
    change (login_precedes_inbound (false || is_login (lit "LOGIN=" ++ signature))
              (frame_log (post ++ run env_consts rest)) = true).
    rewrite is_login_LOGIN. apply login_precedes_inbound_sent.
Qed.

Lemma inbound_logged_after_login_witness :
  let b := PageLoaded (Some (lit "var s = 'abc123';")) in
  let rest := [EvMessage (lit "PING") clock_ex;
               EvError (WebSocketConnectionClosedException (lit "closed")) clock_ex;
               EvMessage (lit "PONG") clock_ex] in
  outcome (get_signature env_consts_ex b) = Ok (lit "abc123") /\
  login_precedes_inbound false
    (frame_log (run env_consts_ex (EvOpen b None clock_ex :: rest))) = true.
Proof.
  intros b rest.
  assert (H : outcome (get_signature env_consts_ex b) = Ok (lit "abc123"))
    by reflexivity.
  split; [exact H|].
  exact (proj2 (inbound_logged_after_login env_consts_ex b None clock_ex
                  (lit "abc123") rest H)).
Defined.

(** ** The error handler *)

(** C4: the error handler prints the single line "Connection closed.
    Retrying..." (and no traceback) if and only if the error is an
    instance of the transport's connection-closed exception; for every
    other error it prints a timestamp, the error, and the whole
    traceback; in both cases it returns normally. *)
Theorem on_ws_error_cases error now :
  outcome (on_ws_error error now) = Ok tt /\
  trace (on_ws_error error now) =
    (if isinstance error (lit "WebSocketConnectionClosedException")
     then [EPrint (lit "Connection closed. Retrying...")]
     else [EPrint (strftime_dmY_HMS now); EPrint (exc_str error); EPrintTb error]) /\
  (trace (on_ws_error error now) = [EPrint (lit "Connection closed. Retrying...")]
   <-> isinstance error (lit "WebSocketConnectionClosedException") = true).
Proof.
  unfold on_ws_error.
  destruct (isinstance error (lit "WebSocketConnectionClosedException")).
  - repeat split.
  - repeat split; discriminate.
Qed.

Example on_ws_error_closed :
  printed (trace (on_ws_error (WebSocketConnectionClosedException (lit "socket is already closed."))
                    clock_ex)) = [lit "Connection closed. Retrying..."].
Proof. reflexivity. Qed.

Example on_ws_error_other :
  trace (on_ws_error IndexError clock_ex) =
  [EPrint (lit "02/01/2024 , 03:04:05"); EPrint (lit "list index out of range");
   EPrintTb IndexError].
Proof. reflexivity. Qed.

(** ** Startup *)

Lemma get_env_consts_loop_missing environ keys env_const_dict key :
  first_missing environ keys = Some key ->
  get_env_consts_loop environ keys env_const_dict =
  ([EPrint (lit "Missing environment variable: " ++ key)], Raised (KeyError key)).
Proof.
  revert env_const_dict.
  induction keys as [|k keys IH]; intros env_const_dict; [discriminate|].
  unfold first_missing. simpl. unfold get_env_var. case_bool_decide as Hk.
  - intros [= <-]. rewrite Hk. reflexivity.
  - intros Hfind. destruct (environ !! k) as [value|]; [|congruence].
    change ((mret value : M pystr) ≫=
              (fun value => get_env_consts_loop environ keys
                              (dict_set env_const_dict k value)))
      with (let '(tr', r) := get_env_consts_loop environ keys
                               (dict_set env_const_dict k value) in
            ([] ++ tr', r)).
    rewrite (IH _ Hfind). reflexivity.
Qed.

Lemma first_missing_exists environ keys key :
  key ∈ keys -> environ !! key = None ->
  exists first, first_missing environ keys = Some first.
Proof.
  intros Hin Hnone. induction Hin as [key keys|key k keys Hin IH].
  - exists key. unfold first_missing. simpl.
    rewrite bool_decide_eq_true_2; auto.
  - unfold first_missing in *. simpl.
    destruct (bool_decide (environ !! k = None)); eauto.
Qed.

(** C6: if a required credential variable is absent from the
    environment, [main] prints "Missing environment variable: " followed
    by the name of the first absent one (in the order the keys are
    visited), ends with the KeyError, and has done nothing else: no
    websocket is created and no connection is attempted, whatever the
    transport would have delivered. *)
Theorem missing_credential_stops_startup environ during_run_forever during_dispatch key :
  key ∈ env_const_dict_init.*1 ->
  environ !! key = None ->
  exists first,
    first_missing environ (env_const_dict_init.*1) = Some first /\
    main environ during_run_forever during_dispatch =
      ([EPrint (lit "Missing environment variable: " ++ first)],
       Raised (KeyError first)) /\
    Forall (fun x => is_network x = false)
      (trace (main environ during_run_forever during_dispatch)).
Proof.
  intros Hin Hnone.
  destruct (first_missing_exists environ _ key Hin Hnone) as [first Hfirst].
  exists first. split; [exact Hfirst|].
  assert (Hmain : main environ during_run_forever during_dispatch =
            ([EPrint (lit "Missing environment variable: " ++ first)],
             Raised (KeyError first))).
  { unfold main, get_env_consts.
    rewrite (get_env_consts_loop_missing _ _ _ _ Hfirst). reflexivity. }
  split; [exact Hmain|].
  rewrite Hmain. repeat constructor.
Qed.

Lemma missing_credential_stops_startup_witness :
  let environ : gmap pystr pystr := {[ lit "IP_USERNAME" := lit "user" ]} in
  let evs := [EvOpen (PageLoaded (Some (lit "var s = 'abc123';"))) None clock_ex] in
  lit "IP_PASSWORD" ∈ env_const_dict_init.*1 /\
  environ !! lit "IP_PASSWORD" = None /\
  exists first,
    first_missing environ (env_const_dict_init.*1) = Some first /\
    main environ evs [] =
      ([EPrint (lit "Missing environment variable: " ++ first)],
       Raised (KeyError first)) /\
    Forall (fun x => is_network x = false) (trace (main environ evs [])).
Proof.
  intros environ evs.
  assert (H1 : lit "IP_PASSWORD" ∈ env_const_dict_init.*1)
    by (apply list_elem_of_In; simpl; auto).
  assert (H2 : environ !! lit "IP_PASSWORD" = None) by (vm_compute; reflexivity).
  split; [exact H1|]. split; [exact H2|].
  exact (missing_credential_stops_startup environ evs [] (lit "IP_PASSWORD") H1 H2).
Defined.

Example main_no_credentials :
  main ∅ [] [] =
  ([EPrint (lit "Missing environment variable: IP_USERNAME")],
   Raised (KeyError (lit "IP_USERNAME"))).
Proof. reflexivity. Qed.

Example get_env_consts_present :
  get_env_consts {[ lit "IP_USERNAME" := lit "user"; lit "IP_PASSWORD" := lit "secret" ]}
  = mret env_consts_ex.
Proof. vm_compute. reflexivity. Qed.

(** ** The frame logger *)

Lemma is_digit_digit n : is_digit (digit (n mod 10)) = true.
Proof.
  unfold is_digit, digit.
  pose proof (N.mod_upper_bound n 10 ltac:(discriminate)) as H.
  generalize dependent (n mod 10). intros d H.
  apply andb_true_intro; split; apply N.leb_le; lia.
Qed.

(** Dropping the last three of the six [%f] digits leaves the
    milliseconds. *)
Lemma timestamp_ms dt : drop_last 3 (strftime_HMSf dt) = hms_mmm dt.
Proof.
  unfold drop_last, strftime_HMSf, hms_mmm.
  assert (Hms : microsecond dt / 10 / 10 / 10 = microsecond dt / 1000)
    by (rewrite !N.Div0.div_div; reflexivity).
  cbn [dec app length take Nat.sub lit List.map list_ascii_of_string].
  rewrite Hms. reflexivity.
Qed.

Lemma hms_mmm_well_formed dt : hms_mmm_shape (hms_mmm dt) = true.
Proof.
  unfold hms_mmm.
  cbn [dec app lit List.map list_ascii_of_string hms_mmm_shape forallb].
  rewrite !is_digit_digit. reflexivity.
Qed.

Lemma hms_mmm_length dt : length (hms_mmm dt) = 12%nat.
Proof. reflexivity. Qed.

Lemma digit_not_line_feed x : bool_decide (digit x = line_feed) = false.
Proof. apply bool_decide_eq_false. unfold digit, line_feed. lia. Qed.

Lemma hms_mmm_no_line_feed dt : count line_feed (hms_mmm dt) = O.
Proof.
  unfold hms_mmm.
  cbn [dec app lit List.map list_ascii_of_string count].
  rewrite !digit_not_line_feed. reflexivity.
Qed.

(** The claim C7 fails for a payload that holds a line feed: it is
    printed as it is, which makes two lines of output.  And the printed
    text does not carry the length: for "PING" received at 01:02:03.000
    no character 4 is printed, the length is in the entry only. *)
Lemma payload_with_line_feed_prints_two_lines :
  line_count (stdout (trace (log_ws_message (lit "a" ++ line_feed :: lit "b")
                               true clock_ex))) = 2%nat /\
  count 52 (stdout (trace (log_ws_message (lit "PING") true
                             (DateTime 2025 1 1 1 2 3 0)))) = O /\
  md_length <$> logged (trace (log_ws_message (lit "PING") true
                                 (DateTime 2025 1 1 1 2 3 0))) = [4%nat].
Proof. repeat split. Qed.

(** C7 (amended): every call of the frame logger makes exactly one
    print.  The printed text is the direction glyph (a different one for
    inbound and for outbound), the time as HH:MM:SS.mmm between brackets,
    a space, and the whole payload unchanged, and nothing else: it is 16
    characters longer than the payload and, ended by the line feed of the
    print, makes one line of output more than the payload has line feeds,
    so exactly one line when the payload has none.  The payload's length
    is recorded in the entry built for the call, 4 for the payload
    "PING", and is not printed. *)
Theorem log_ws_message_line raw_message received utcnow :
  log_ws_message raw_message received utcnow =
    ([EMessageData {| md_time := hms_mmm utcnow;
                      md_length := length raw_message;
                      md_message := raw_message;
                      md_received := received |};
      EPrint ((if received then [down_arrow] else [up_arrow]) ++
              lit "[" ++ hms_mmm utcnow ++ lit "] " ++ raw_message)],
     Ok tt) /\
  hms_mmm_shape (hms_mmm utcnow) = true /\
  down_arrow <> up_arrow /\
  length <$> printed (trace (log_ws_message raw_message received utcnow)) =
    [(16 + length raw_message)%nat] /\
  line_count (stdout (trace (log_ws_message raw_message received utcnow))) =
    S (count line_feed raw_message) /\
  md_length <$> logged (trace (log_ws_message (lit "PING") true utcnow)) = [4%nat].
Proof.
  assert (Heq : log_ws_message raw_message received utcnow =
    ([EMessageData {| md_time := hms_mmm utcnow;
                      md_length := length raw_message;
                      md_message := raw_message;
                      md_received := received |};
      EPrint ((if received then [down_arrow] else [up_arrow]) ++
              lit "[" ++ hms_mmm utcnow ++ lit "] " ++ raw_message)],
     Ok tt)).
  { unfold log_ws_message. cbn [md_time md_message].
    rewrite timestamp_ms. reflexivity. }
  split; [exact Heq|]. split; [apply hms_mmm_well_formed|].
  split; [discriminate|]. split; [|split; [|reflexivity]].
  - rewrite Heq. cbn [trace fst printed omap list_omap fmap list_fmap].
    f_equal. rewrite !length_app, hms_mmm_length.
    destruct received; reflexivity.
  - rewrite Heq. cbn [trace fst stdout]. unfold line_count.
    rewrite !count_app, hms_mmm_no_line_feed.
    change (count line_feed (lit "[")) with O.
    change (count line_feed (lit "] ")) with O.
    change (count line_feed [line_feed]) with 1%nat.
    destruct received;
      [change (count line_feed [down_arrow]) with O
      |change (count line_feed [up_arrow]) with O]; lia.
Qed.

Example log_ping :
  printed (trace (on_ws_message (lit "PING") clock_ex)) =
  [down_arrow :: lit "[03:04:05.678] PING"].
Proof. reflexivity. Qed.

(** ** Every execution *)

Lemma logged_frame_log tr : logged tr = omap logged_of (frame_log tr).
Proof.
  induction tr as [|x tr IH]; [reflexivity|].
  destruct x; simpl; fold (logged tr); fold (frame_log tr);
    rewrite ?IH; reflexivity.
Qed.

(** The open handler never calls the frame logger. *)
Lemma on_ws_open_logs_nothing env_consts b send_exn :
  logged (trace (on_ws_open env_consts b send_exn)) = [].
Proof.
  pose proof (get_signature_frame_log env_consts b) as Hfl.
  rewrite logged_frame_log.
  destruct (outcome (get_signature env_consts b)) as [signature|e] eqn:H.
  - rewrite (on_ws_open_returns _ _ _ _ H).
    cbn [trace fst]. rewrite !frame_log_app, Hfl. reflexivity.
  - rewrite (on_ws_open_raises _ _ _ _ H).
    cbn [trace fst]. rewrite !frame_log_app, Hfl. reflexivity.
Qed.

Lemma on_ws_error_logs_nothing error now :
  logged (trace (on_ws_error error now)) = [].
Proof.
  rewrite logged_frame_log, (proj2 (on_ws_error_quiet error now)). reflexivity.
Qed.

Lemma callback_logged env_consts ev :
  Forall (fun md => md_received md = true) (logged (callback env_consts ev)).
Proof.
  destruct ev as [b send_exn now|raw_message utcnow|error now|code msg].
  - unfold callback, handler.
    pose proof (on_ws_open_logs_nothing env_consts b send_exn) as Hopen.
    destruct (on_ws_open env_consts b send_exn) as [tr [[]|e]]; simpl in Hopen.
    + rewrite Hopen. constructor.
    + rewrite logged_app, Hopen, on_ws_error_logs_nothing. constructor.
  - repeat constructor.
  - unfold callback, handler.
    pose proof (on_ws_error_logs_nothing error now) as Herr.
    destruct (on_ws_error error now) as [tr [[]|e]]; simpl in Herr.
    + rewrite Herr. constructor.
    + rewrite logged_app, Herr, on_ws_error_logs_nothing. constructor.
  - repeat constructor.
Qed.

Lemma run_logged env_consts evs :
  Forall (fun md => md_received md = true) (logged (run env_consts evs)).
Proof.
  induction evs as [|ev evs IH]; [constructor|].
  rewrite run_cons, logged_app. apply Forall_app. split; [|exact IH].
  apply callback_logged.
Qed.

Lemma get_env_consts_loop_logs_nothing environ keys env_const_dict :
  logged (trace (get_env_consts_loop environ keys env_const_dict)) = [].
Proof.
  revert env_const_dict.
  induction keys as [|k keys IH]; intros env_const_dict; [reflexivity|].
  simpl. unfold get_env_var.
  destruct (environ !! k) as [value|]; [|reflexivity].
  specialize (IH (dict_set env_const_dict k value)).
  change ((mret value : M pystr) ≫=
            (fun value => get_env_consts_loop environ keys
                            (dict_set env_const_dict k value)))
    with (let '(tr', r) := get_env_consts_loop environ keys
                             (dict_set env_const_dict k value) in
          ([] ++ tr', r)).
  destruct (get_env_consts_loop environ keys (dict_set env_const_dict k value)).
  exact IH.
Qed.

(** The trace of [main] once the credentials are loaded. *)
Lemma main_started environ during_run_forever during_dispatch env_consts :
  outcome (get_env_consts environ) = Ok env_consts ->
  trace (main environ during_run_forever during_dispatch) =
  trace (get_env_consts environ) ++
  [EEnableTrace false;
   ERunForever {| rf_url := lit "wss://server1.idle-pixel.com";
                  rf_dispatcher_rel := true;
                  rf_reconnect := 120;
                  rf_cert_reqs_none := true |}] ++
  run env_consts during_run_forever ++
  [ERelSignal 2; ERelDispatch] ++
  run env_consts during_dispatch.
Proof.
  unfold main. destruct (get_env_consts environ) as [tr r].
  cbn [outcome snd trace fst]. intros ->.
  unfold mbind, M_bind, bind, emit, emit_all. cbn [fst app].
  reflexivity.
Qed.

(** C9: in every execution of the program, each call of the frame logger
    has [received = True].  The open handler sends the LOGIN frame with
    [ws.send] without calling the logger, and the line printed for a
    received frame starts with the inbound glyph, which differs from the
    outbound one. *)
Theorem logger_only_inbound environ during_run_forever during_dispatch :
  Forall (fun md => md_received md = true)
    (logged (trace (main environ during_run_forever during_dispatch))) /\
  (forall env_consts b send_exn,
     logged (trace (on_ws_open env_consts b send_exn)) = []) /\
  (forall raw_message utcnow,
     exists rest, printed (trace (on_ws_message raw_message utcnow)) =
                    [down_arrow :: rest]) /\
  down_arrow <> up_arrow.
Proof.
  split; [|split; [|split]].
  - destruct (outcome (get_env_consts environ)) as [env_consts|e] eqn:H.
    + rewrite (main_started _ _ _ _ H), !logged_app.
      unfold get_env_consts. rewrite get_env_consts_loop_logs_nothing.
      repeat apply Forall_app_2; try apply run_logged; constructor.
    + unfold main. rewrite (bind_Raised _ _ _ H). cbn [trace fst].
      unfold get_env_consts. rewrite get_env_consts_loop_logs_nothing.
      constructor.
  - apply on_ws_open_logs_nothing.
  - intros raw_message utcnow. eexists. reflexivity.
  - discriminate.
Qed.

(** With both credentials present the program reaches [run_forever],
    asking for a reconnect delay of 120 and the [rel] dispatcher. *)
Example main_run_forever_arguments :
  trace (main {[ lit "IP_USERNAME" := lit "user"; lit "IP_PASSWORD" := lit "secret" ]}
           [] [EvClose None None]) =
  [EEnableTrace false;
   ERunForever {| rf_url := lit "wss://server1.idle-pixel.com";
                  rf_dispatcher_rel := true;
                  rf_reconnect := 120;
                  rf_cert_reqs_none := true |};
   ERelSignal 2; ERelDispatch;
   EPrint (lit "### closed ###")].
Proof. vm_compute. reflexivity. Qed.

(** * Further properties of the code *)

(** ** What the extraction returns *)


(** X1: a returned signature is a piece of the script text: it stands
    right after the first apostrophe, no semicolon or apostrophe comes
    before it or lies inside it, and it ends at the next apostrophe, at
    the first semicolon, or at the end of the text. *)
Theorem signature_position script_tag signature :
  extract_signature (Some script_tag) = mret signature ->
  exists pre post,
    script_tag = pre ++ apostrophe :: signature ++ post /\
    count apostrophe pre = O /\ count semicolon pre = O /\
    count apostrophe signature = O /\ count semicolon signature = O /\
    (post = [] \/ exists x post', post = x :: post' /\
                                   (x = apostrophe \/ x = semicolon)).
Proof.
  rewrite extract_signature_Some.
  set (prefix := before_first semicolon script_tag).
  pose proof (before_after_first semicolon script_tag) as Hs. fold prefix in Hs.
  pose proof (count_before_first semicolon script_tag) as Hsemi. fold prefix in Hsemi.
  pose proof (before_after_first apostrophe prefix) as Hp.
  destruct (after_first apostrophe prefix) as [r|]; [|discriminate].
  intros [= <-].
  pose proof (before_after_first apostrophe r) as Hr.
  pose proof (count_before_first apostrophe r) as Hsig.
  pose proof (count_before_first apostrophe prefix) as Hpre.
  set (pre := before_first apostrophe prefix) in *.
  set (signature := before_first apostrophe r) in *.
  set (rest2 := match after_first apostrophe r with
                | Some r' => apostrophe :: r' | None => [] end) in *.
  set (rest1 := match after_first semicolon script_tag with
                | Some r' => semicolon :: r' | None => [] end) in *.
  assert (Hcount : (count semicolon pre + count semicolon signature = 0)%nat).
  { rewrite Hp, Hr, !count_app in Hsemi. simpl in Hsemi.
    rewrite count_app in Hsemi. lia. }
  exists pre, (rest2 ++ rest1). repeat split; try lia; try assumption.
  - rewrite Hs at 1. rewrite Hp at 1. rewrite Hr at 1.
    rewrite <- !app_assoc. simpl. rewrite <- !app_assoc. reflexivity.
  - subst rest1 rest2.
    destruct (after_first apostrophe r); simpl; [right; eauto|].
    destruct (after_first semicolon script_tag); [right; eauto|left; reflexivity].
Qed.

Lemma signature_position_witness :
  extract_signature (Some (lit "var s = 'abc123'; start('x');")) = mret (lit "abc123") /\
  exists pre post,
    lit "var s = 'abc123'; start('x');" = pre ++ apostrophe :: lit "abc123" ++ post /\
    count apostrophe pre = O /\ count semicolon pre = O /\
    count apostrophe (lit "abc123") = O /\ count semicolon (lit "abc123") = O /\
    (post = [] \/ exists x post', post = x :: post' /\
                                   (x = apostrophe \/ x = semicolon)).
Proof.
  assert (H : extract_signature (Some (lit "var s = 'abc123'; start('x');")) =
              mret (lit "abc123")) by reflexivity.
  split; [exact H|].
  exact (signature_position _ _ H).
Defined.

(** X2: what follows the first semicolon of the script text has no
    influence on the extraction, whether it returns or raises. *)
Theorem extraction_ignores_after_semicolon prefix rest :
  count semicolon prefix = O ->
  extract_signature (Some (prefix ++ semicolon :: rest)) =
  extract_signature (Some prefix).
Proof.
  intros H. rewrite !extract_signature_Some.
  rewrite (before_first_app semicolon prefix rest H).
  rewrite (before_first_absent semicolon prefix H). reflexivity.
Qed.

Lemma extraction_ignores_after_semicolon_witness :
  count semicolon (lit "var s = 'abc'") = O /\
  extract_signature (Some (lit "var s = 'abc'" ++ semicolon :: lit " t = 'other';")) =
  extract_signature (Some (lit "var s = 'abc'")).
Proof.
  assert (H : count semicolon (lit "var s = 'abc'") = O) by reflexivity.
  split; [exact H|].
  exact (extraction_ignores_after_semicolon _ (lit " t = 'other';") H).
Defined.

(** X3: the extraction returns a signature exactly when the script text
    has an apostrophe before its first semicolon; one apostrophe is
    enough, a closing one is not needed. *)
Theorem extraction_returns_iff script_tag :
  (exists signature, extract_signature (Some script_tag) = mret signature) <->
  count apostrophe (before_first semicolon script_tag) <> O.
Proof.
  rewrite extract_signature_Some, <- after_first_None.
  destruct (after_first apostrophe (before_first semicolon script_tag)) as [r|].
  - split; [discriminate|]. intros _. eexists. reflexivity.
  - split; [|congruence]. intros [signature H]. discriminate.
Qed.

(** ** What a whole run does *)

Lemma printed_app tr1 tr2 : printed (tr1 ++ tr2) = printed tr1 ++ printed tr2.
Proof. apply omap_app. Qed.

Lemma fills_app tr1 tr2 : fills (tr1 ++ tr2) = fills tr1 ++ fills tr2.
Proof. apply omap_app. Qed.

(** [get_signature] prints nothing. *)
Lemma get_signature_printed env_consts b :
  printed (trace (get_signature env_consts b)) = [].
Proof.
  destruct b as [n e|found].
  - destruct n as [|[|[|[|[|[|[|[|n]]]]]]]]; run_get_signature.
  - run_get_signature.
Qed.

Lemma on_ws_error_sends_nothing error now :
  sent_frames (trace (on_ws_error error now)) = [].
Proof.
  rewrite sent_frames_frame_log, (proj2 (on_ws_error_quiet error now)).
  reflexivity.
Qed.

Lemma get_signature_sends_nothing env_consts b :
  sent_frames (trace (get_signature env_consts b)) = [].
Proof.
  rewrite sent_frames_frame_log, get_signature_frame_log. reflexivity.
Qed.

Lemma get_signature_logs_nothing env_consts b :
  logged (trace (get_signature env_consts b)) = [].
Proof.
  rewrite logged_frame_log, get_signature_frame_log. reflexivity.
Qed.

Lemma callback_sent env_consts ev :
  sent_frames (callback env_consts ev) = option_list (login_frame_of env_consts ev).
Proof.
  destruct ev as [b send_exn now|raw_message utcnow|error now|code msg].
  - rewrite callback_open_trace, !sent_frames_app, get_signature_sends_nothing.
    unfold login_frame_of.
    destruct (outcome (get_signature env_consts b)) as [signature|e].
    + rewrite sent_frames_app.
      destruct send_exn; rewrite ?on_ws_error_sends_nothing; reflexivity.
    + rewrite on_ws_error_sends_nothing. reflexivity.
  - reflexivity.
  - unfold callback, handler.
    pose proof (on_ws_error_sends_nothing error now) as H.
    destruct (on_ws_error error now) as [tr [[]|e]]; simpl in H.
    + exact H.
    + rewrite sent_frames_app, H, on_ws_error_sends_nothing. reflexivity.
  - reflexivity.
Qed.

(** X4: over any sequence of events, sessions and reconnections
    included, the frames the program sends are exactly one LOGIN frame for
    each open event whose signature acquisition returned, in order; an
    open event whose acquisition raised, a message, an error and a close
    send nothing. *)
Theorem sent_frames_run env_consts evs :
  sent_frames (run env_consts evs) = omap (login_frame_of env_consts) evs.
Proof.
  induction evs as [|ev evs IH]; [reflexivity|].
  rewrite run_cons, sent_frames_app, callback_sent, IH.
  simpl. destruct (login_frame_of env_consts ev); reflexivity.
Qed.

(** The trace of the frame logger in closed form. *)
Lemma log_ws_message_entry raw_message received utcnow :
  log_ws_message raw_message received utcnow =
    ([EMessageData {| md_time := hms_mmm utcnow;
                      md_length := length raw_message;
                      md_message := raw_message;
                      md_received := received |};
      EPrint ((if received then [down_arrow] else [up_arrow]) ++
              lit "[" ++ hms_mmm utcnow ++ lit "] " ++ raw_message)],
     Ok tt).
Proof.
  unfold log_ws_message. cbn [md_time md_message].
  rewrite timestamp_ms. reflexivity.
Qed.

Lemma callback_entries env_consts ev :
  logged (callback env_consts ev) = option_list (entry_of ev).
Proof.
  destruct ev as [b send_exn now|raw_message utcnow|error now|code msg].
  - rewrite callback_open_trace, !logged_app, get_signature_logs_nothing.
    destruct (outcome (get_signature env_consts b)) as [signature|e].
    + rewrite logged_app.
      destruct send_exn; rewrite ?on_ws_error_logs_nothing; reflexivity.
    + rewrite on_ws_error_logs_nothing. reflexivity.
  - unfold callback, handler, on_ws_message.
    rewrite (log_ws_message_entry raw_message true utcnow). reflexivity.
  - unfold callback, handler.
    pose proof (on_ws_error_logs_nothing error now) as H.
    destruct (on_ws_error error now) as [tr [[]|e]]; simpl in H.
    + exact H.
    + rewrite logged_app, H, on_ws_error_logs_nothing. reflexivity.
  - reflexivity.
Qed.

(** X5: over any sequence of events, the frame logger is called once for
    each message event and for nothing else, in arrival order; each entry
    holds the payload as received, its length, the receive time to the
    millisecond and the inbound direction. *)
Theorem logged_run env_consts evs :
  logged (run env_consts evs) = omap entry_of evs.
Proof.
  induction evs as [|ev evs IH]; [reflexivity|].
  rewrite run_cons, logged_app, callback_entries, IH.
  simpl. destruct (entry_of ev); reflexivity.
Qed.

Lemma callback_acquisitions env_consts ev :
  acquisitions (callback env_consts ev) = if is_open ev then 1%nat else O.
Proof.
  destruct (is_open ev) eqn:Hopen.
  - destruct ev as [b send_exn now| | |]; try discriminate.
    rewrite callback_open_trace, !acquisitions_app, get_signature_acquisitions.
    destruct (outcome (get_signature env_consts b)) as [signature|e].
    + rewrite acquisitions_app.
      destruct send_exn; rewrite ?(proj1 (on_ws_error_quiet _ _)); reflexivity.
    + rewrite (proj1 (on_ws_error_quiet _ _)). reflexivity.
  - apply callback_not_open. exact Hopen.
Qed.

Lemma launches_app tr1 tr2 :
  launches (tr1 ++ tr2) = (launches tr1 + launches tr2)%nat.
Proof. unfold launches. rewrite omap_app, length_app. reflexivity. Qed.

(** The browser is launched unless entering [async_playwright()] failed. *)
Lemma get_signature_launches env_consts b :
  launches (trace (get_signature env_consts b)) =
  match b with BrowserRaised O _ => O | _ => 1%nat end.
Proof.
  destruct b as [n e|found].
  - destruct n as [|[|[|[|[|[|[|[|n]]]]]]]]; run_get_signature.
  - run_get_signature.
Qed.

Lemma on_ws_error_launches error now : launches (trace (on_ws_error error now)) = O.
Proof.
  unfold on_ws_error.
  destruct (isinstance error (lit "WebSocketConnectionClosedException"));
    reflexivity.
Qed.

Lemma callback_launches env_consts ev :
  launches (callback env_consts ev) = if playwright_started ev then 1%nat else O.
Proof.
  destruct ev as [b send_exn now|raw_message utcnow|error now|code msg].
  - rewrite callback_open_trace, !launches_app, get_signature_launches.
    assert (Htail : launches
              match outcome (get_signature env_consts b) with
              | Ok signature =>
                  [EPrint (lit "Signature acquired."); EPrint (lit "Logging in...");
                   ESend (lit "LOGIN=" ++ signature)] ++
                  match send_exn with
                  | Some e => trace (on_ws_error e now)
                  | None => []
                  end
              | Raised e => trace (on_ws_error e now)
              end = O).
    { destruct (outcome (get_signature env_consts b)) as [signature|e].
      - rewrite launches_app.
        destruct send_exn; rewrite ?on_ws_error_launches; reflexivity.
      - apply on_ws_error_launches. }
    rewrite Htail. destruct b as [[|n] e|found]; reflexivity.
  - reflexivity.
  - unfold callback, handler.
    pose proof (on_ws_error_launches error now) as H.
    destruct (on_ws_error error now) as [tr [[]|e]]; simpl in H.
    + exact H.
    + rewrite launches_app, H, on_ws_error_launches. reflexivity.
  - reflexivity.
Qed.

(** X6: a signature acquisition is started afresh for every open event,
    the first connection and every reconnection alike: over any sequence
    of events [get_signature] enters [async_playwright()] exactly as many
    times as there are open events, and the browser is launched once for
    each open event except those where that entry itself raised. *)
Theorem acquisitions_run env_consts evs :
  acquisitions (run env_consts evs) = length (List.filter is_open evs) /\
  launches (run env_consts evs) = length (List.filter playwright_started evs).
Proof.
  induction evs as [|ev evs [IHa IHl]]; [split; reflexivity|].
  rewrite run_cons, acquisitions_app, launches_app,
    callback_acquisitions, callback_launches, IHa, IHl.
  simpl. destruct (is_open ev), (playwright_started ev); split; reflexivity.
Qed.

Example launch_skipped_when_playwright_fails :
  let evs := [EvOpen (BrowserRaised 0 (Exn [lit "Error"; lit "Exception"] (lit "no driver")))
                None clock_ex;
              EvOpen (PageLoaded (Some (lit "var s = 'abc123';"))) None clock_ex] in
  acquisitions (run env_consts_ex evs) = 2%nat /\
  launches (run env_consts_ex evs) = 1%nat.
Proof. split; reflexivity. Qed.

(** X7: the open handler always prints "Opened connection." and
    "Acquiring signature..."; it prints "Signature acquired." and
    "Logging in..." exactly when the acquirer returned, also when the
    send that follows fails. *)
Theorem on_ws_open_prints env_consts b send_exn :
  printed (trace (on_ws_open env_consts b send_exn)) =
  [lit "Opened connection."; lit "Acquiring signature..."] ++
  match outcome (get_signature env_consts b) with
  | Ok _ => [lit "Signature acquired."; lit "Logging in..."]
  | Raised _ => []
  end.
Proof.
  pose proof (get_signature_printed env_consts b) as Hp.
  destruct (outcome (get_signature env_consts b)) as [signature|e] eqn:H.
  - rewrite (on_ws_open_returns _ _ _ _ H). cbn [trace fst].
    rewrite !printed_app, Hp. reflexivity.
  - rewrite (on_ws_open_raises _ _ _ _ H). cbn [trace fst].
    rewrite !printed_app, Hp. reflexivity.
Qed.

(** ** Credentials, from the environment to the login form *)

Lemma get_env_consts_cases environ :
  get_env_consts environ =
  match environ !! lit "IP_USERNAME" with
  | None => ([EPrint (lit "Missing environment variable: " ++ lit "IP_USERNAME")],
             Raised (KeyError (lit "IP_USERNAME")))
  | Some username =>
      match environ !! lit "IP_PASSWORD" with
      | None => ([EPrint (lit "Missing environment variable: " ++ lit "IP_PASSWORD")],
                 Raised (KeyError (lit "IP_PASSWORD")))
      | Some password =>
          ([], Ok [(lit "IP_USERNAME", username); (lit "IP_PASSWORD", password)])
      end
  end.
Proof.
  unfold get_env_consts.
  change (env_const_dict_init.*1) with [lit "IP_USERNAME"; lit "IP_PASSWORD"].
  cbn [get_env_consts_loop]. unfold get_env_var.
  destruct (environ !! lit "IP_USERNAME") as [username|]; [|reflexivity].
  destruct (environ !! lit "IP_PASSWORD") as [password|]; reflexivity.
Qed.

(** X8: when both IP_USERNAME and IP_PASSWORD are set, credential
    loading prints nothing and returns a dict with exactly these two keys,
    in this order, holding the environment's values; other variables of
    the environment are ignored. *)
Theorem credentials_loaded environ username password :
  environ !! lit "IP_USERNAME" = Some username ->
  environ !! lit "IP_PASSWORD" = Some password ->
  get_env_consts environ =
  mret [(lit "IP_USERNAME", username); (lit "IP_PASSWORD", password)].
Proof.
  intros Hu Hp. rewrite get_env_consts_cases, Hu, Hp. reflexivity.
Qed.

Lemma credentials_loaded_witness :
  let environ : gmap pystr pystr :=
    {[ lit "IP_USERNAME" := lit "user"; lit "IP_PASSWORD" := lit "secret";
       lit "HOME" := lit "/root" ]} in
  environ !! lit "IP_USERNAME" = Some (lit "user") /\
  environ !! lit "IP_PASSWORD" = Some (lit "secret") /\
  get_env_consts environ =
  mret [(lit "IP_USERNAME", lit "user"); (lit "IP_PASSWORD", lit "secret")].
Proof.
  intros environ.
  assert (H1 : environ !! lit "IP_USERNAME" = Some (lit "user"))
    by (vm_compute; reflexivity).
  assert (H2 : environ !! lit "IP_PASSWORD" = Some (lit "secret"))
    by (vm_compute; reflexivity).
  split; [exact H1|]. split; [exact H2|].
  exact (credentials_loaded environ _ _ H1 H2).
Defined.

Ltac fill_cases Hu Hp :=
  compute;
  repeat match goal with
         | |- Forall _ [] => constructor
         | |- Forall _ (_ :: _) => constructor; cbv beta
         | |- _ \/ _ =>
             first [ left; split; [reflexivity | exact Hu]
                   | right; split; [reflexivity | exact Hp] ]
         end.

(** The form is filled from [env_consts], each value into its field. *)
Lemma get_signature_fills env_consts b :
  Forall (fill_from_dict env_consts) (fills (trace (get_signature env_consts b))).
Proof.
  unfold get_signature, browser_call, dict_getitem.
  destruct (dict_get env_consts (lit "IP_USERNAME")) as [username|] eqn:Hu;
    destruct (dict_get env_consts (lit "IP_PASSWORD")) as [password|] eqn:Hp;
    destruct b as [n e|found];
    try (destruct n as [|[|[|[|[|[|[|[|n]]]]]]]]);
    try (pose proof (extract_signature_trace found) as Hx;
         destruct (extract_signature found) as [tr r]; simpl in Hx; subst tr);
    fill_cases Hu Hp.
Qed.

Lemma on_ws_error_fills error now : fills (trace (on_ws_error error now)) = [].
Proof.
  unfold on_ws_error.
  destruct (isinstance error (lit "WebSocketConnectionClosedException"));
    reflexivity.
Qed.

Lemma callback_fills env_consts ev :
  Forall (fill_from_dict env_consts) (fills (callback env_consts ev)).
Proof.
  destruct ev as [b send_exn now|raw_message utcnow|error now|code msg].
  - rewrite callback_open_trace, !fills_app.
    repeat apply Forall_app_2; [constructor|apply get_signature_fills|].
    destruct (outcome (get_signature env_consts b)) as [signature|e].
    + rewrite fills_app. destruct send_exn;
        rewrite ?on_ws_error_fills; constructor.
    + rewrite on_ws_error_fills. constructor.
  - constructor.
  - unfold callback, handler.
    pose proof (on_ws_error_fills error now) as H.
    destruct (on_ws_error error now) as [tr [[]|e]]; simpl in H.
    + rewrite H. constructor.
    + rewrite fills_app, H, on_ws_error_fills. constructor.
  - constructor.
Qed.

Lemma run_fills env_consts evs :
  Forall (fill_from_dict env_consts) (fills (run env_consts evs)).
Proof.
  induction evs as [|ev evs IH]; [constructor|].
  rewrite run_cons, fills_app. apply Forall_app_2; [apply callback_fills|exact IH].
Qed.

(** X10: in every execution of the program, whatever the events, each
    value typed into the login form comes from the environment: the
    username field only ever receives IP_USERNAME and the password field
    only ever receives IP_PASSWORD, and no other field is filled.  (In
    particular the credentials lookup inside [get_signature] cannot fail
    once [main] has started.) *)
Theorem form_filled_from_environment environ during_run_forever during_dispatch :
  Forall (fill_from_environ environ)
    (fills (trace (main environ during_run_forever during_dispatch))).
Proof.
  unfold main. rewrite get_env_consts_cases.
  destruct (environ !! lit "IP_USERNAME") as [username|] eqn:Hu; [|constructor].
  destruct (environ !! lit "IP_PASSWORD") as [password|] eqn:Hp; [|constructor].
  set (env_consts := [(lit "IP_USERNAME", username); (lit "IP_PASSWORD", password)]).
  change (Forall (fill_from_environ environ)
            (fills ([EEnableTrace false;
                     ERunForever {| rf_url := lit "wss://server1.idle-pixel.com";
                                    rf_dispatcher_rel := true;
                                    rf_reconnect := 120;
                                    rf_cert_reqs_none := true |}] ++
                    run env_consts during_run_forever ++
                    [ERelSignal 2; ERelDispatch] ++
                    run env_consts during_dispatch))).
  assert (Hdict : forall f, fill_from_dict env_consts f -> fill_from_environ environ f).
  { intros f [[Hsel Hval]|[Hsel Hval]]; [left|right]; (split; [exact Hsel|]).
    - rewrite Hu. exact Hval.
    - rewrite Hp. exact Hval. }
  rewrite !fills_app.
  repeat apply Forall_app_2; try constructor;
    eapply Forall_impl; try apply run_fills; exact Hdict.
Qed.

Example fills_of_one_session :
  fills (trace (main {[ lit "IP_USERNAME" := lit "user"; lit "IP_PASSWORD" := lit "secret" ]}
                  [EvOpen (PageLoaded (Some (lit "var s = 'abc123';"))) None clock_ex] [])) =
  [(lit "[id=id_username]", lit "user"); (lit "[id=id_password]", lit "secret")].
Proof. vm_compute. reflexivity. Qed.

(** ** Reports of the error handler *)




(** X12: a failed extraction is reported in full.  With the
    credentials in [env_consts] and a browser that did not fail, when the
    page has no script tag or its script has no apostrophe before the
    first semicolon, the delivery of the open event prints the two opening
    lines, then the time and the text of the AttributeError or IndexError
    (never the "Connection closed. Retrying..." line), and sends no
    frame. *)
Theorem extraction_failure_reported env_consts username password found send_exn now :
  dict_get env_consts (lit "IP_USERNAME") = Some username ->
  dict_get env_consts (lit "IP_PASSWORD") = Some password ->
  match found with
  | None => True
  | Some script_tag => count apostrophe (before_first semicolon script_tag) = O
  end ->
  let e := match found with None => AttributeError | Some _ => IndexError end in
  printed (callback env_consts (EvOpen (PageLoaded found) send_exn now)) =
    [lit "Opened connection."; lit "Acquiring signature...";
     strftime_dmY_HMS now; exc_str e] /\
  sent_frames (callback env_consts (EvOpen (PageLoaded found) send_exn now)) = [].
Proof.
  intros Hu Hp Hfound e.
  assert (Hout : outcome (get_signature env_consts (PageLoaded found)) = Raised e).
  { rewrite (get_signature_page _ _ _ _ Hu Hp),
      (extract_signature_raises found Hfound). reflexivity. }
  assert (Hinst : isinstance e (lit "WebSocketConnectionClosedException") = false)
    by (subst e; destruct found; vm_compute; reflexivity).
  split.
  - rewrite callback_open_trace, Hout, !printed_app, get_signature_printed.
    unfold on_ws_error. rewrite Hinst. reflexivity.
  - rewrite callback_sent. unfold login_frame_of. rewrite Hout. reflexivity.
Qed.

Lemma extraction_failure_reported_witness :
  dict_get env_consts_ex (lit "IP_USERNAME") = Some (lit "user") /\
  dict_get env_consts_ex (lit "IP_PASSWORD") = Some (lit "secret") /\
  count apostrophe (before_first semicolon (lit "var s = 5;")) = O /\
  printed (callback env_consts_ex
             (EvOpen (PageLoaded (Some (lit "var s = 5;"))) None clock_ex)) =
    [lit "Opened connection."; lit "Acquiring signature...";
     strftime_dmY_HMS clock_ex; exc_str IndexError] /\
  sent_frames (callback env_consts_ex
                 (EvOpen (PageLoaded (Some (lit "var s = 5;"))) None clock_ex)) = [].
Proof.
  assert (H1 : dict_get env_consts_ex (lit "IP_USERNAME") = Some (lit "user"))
    by reflexivity.
  assert (H2 : dict_get env_consts_ex (lit "IP_PASSWORD") = Some (lit "secret"))
    by reflexivity.
  assert (H3 : count apostrophe (before_first semicolon (lit "var s = 5;")) = O)
    by reflexivity.
  split; [exact H1|]. split; [exact H2|]. split; [exact H3|].
  exact (extraction_failure_reported env_consts_ex _ _
           (Some (lit "var s = 5;")) None clock_ex H1 H2 H3).
Defined.

(** ** The logger's timestamp *)

Lemma length_dec w n : length (dec w n) = w.
Proof.
  revert n. induction w as [|w IH]; intros n; [reflexivity|].
  simpl. rewrite length_app, IH. simpl. lia.
Qed.

Lemma digit_inj x y : digit x = digit y -> x = y.
Proof. unfold digit. lia. Qed.

(** A number below [10 ^ w] is determined by its [w] digits. *)
Lemma dec_inj w a b :
  a < 10 ^ N.of_nat w -> b < 10 ^ N.of_nat w -> dec w a = dec w b -> a = b.
Proof.
  revert a b. induction w as [|w IH]; intros a b Ha Hb.
  - simpl in Ha, Hb. lia.
  - rewrite Nat2N.inj_succ, N.pow_succ_r' in Ha, Hb.
    cbn [dec]. intros H. apply app_inj_tail in H as [Hhigh Hlow].
    apply digit_inj in Hlow.
    assert (Hq : a / 10 = b / 10).
    { apply IH; [| |exact Hhigh];
        apply N.Div0.div_lt_upper_bound; assumption. }
    rewrite (N.div_mod a 10), (N.div_mod b 10) by discriminate.
    rewrite Hq, Hlow. reflexivity.
Qed.

(** X13: the time text of the frame logger, [strftime("%H:%M:%S.%f")]
    without its last three characters, tells the time of day to the
    millisecond: two valid clock readings that give the same text have
    the same hour, minute and second and lie in the same millisecond. *)
Theorem timestamp_to_the_millisecond dt1 dt2 :
  valid_time dt1 -> valid_time dt2 ->
  drop_last 3 (strftime_HMSf dt1) = drop_last 3 (strftime_HMSf dt2) ->
  hour dt1 = hour dt2 /\ minute dt1 = minute dt2 /\ second dt1 = second dt2 /\
  microsecond dt1 / 1000 = microsecond dt2 / 1000.
Proof.
  intros (Hh1 & Hm1 & Hs1 & Hu1) (Hh2 & Hm2 & Hs2 & Hu2).
  rewrite !timestamp_ms. unfold hms_mmm. intros H.
  apply app_inj_1 in H as [Hh H]; [|rewrite !length_dec; reflexivity].
  apply app_inj_1 in H as [_ H]; [|reflexivity].
  apply app_inj_1 in H as [Hm H]; [|rewrite !length_dec; reflexivity].
  apply app_inj_1 in H as [_ H]; [|reflexivity].
  apply app_inj_1 in H as [Hs H]; [|rewrite !length_dec; reflexivity].
  apply app_inj_1 in H as [_ Hms]; [|reflexivity].
  assert (Hq1 : microsecond dt1 / 1000 < 1000)
    by (apply N.Div0.div_lt_upper_bound; exact Hu1).
  assert (Hq2 : microsecond dt2 / 1000 < 1000)
    by (apply N.Div0.div_lt_upper_bound; exact Hu2).
  repeat split.
  - apply (dec_inj 2); [change (hour dt1 < 100)|change (hour dt2 < 100)|exact Hh]; lia.
  - apply (dec_inj 2); [change (minute dt1 < 100)|change (minute dt2 < 100)|exact Hm]; lia.
  - apply (dec_inj 2); [change (second dt1 < 100)|change (second dt2 < 100)|exact Hs]; lia.
  - apply (dec_inj 3); [exact Hq1|exact Hq2|exact Hms].
Qed.

Lemma timestamp_to_the_millisecond_witness :
  let dt1 := DateTime 2024 1 2 3 4 5 678901 in
  let dt2 := DateTime 2025 6 7 3 4 5 678000 in
  valid_time dt1 /\ valid_time dt2 /\
  drop_last 3 (strftime_HMSf dt1) = drop_last 3 (strftime_HMSf dt2) /\
  hour dt1 = hour dt2 /\ minute dt1 = minute dt2 /\ second dt1 = second dt2 /\
  microsecond dt1 / 1000 = microsecond dt2 / 1000.
Proof.
  intros dt1 dt2.
  assert (H1 : valid_time dt1) by (repeat split).
  assert (H2 : valid_time dt2) by (repeat split).
  assert (H3 : drop_last 3 (strftime_HMSf dt1) = drop_last 3 (strftime_HMSf dt2))
    by reflexivity.
  split; [exact H1|]. split; [exact H2|]. split; [exact H3|].
  exact (timestamp_to_the_millisecond dt1 dt2 H1 H2 H3).
Defined.

(** ** The browser calls of an acquisition *)


